(** * store-it: the user actions (lib/actions/user.actions.ts)

    A shallow embedding of the server actions that register, sign in and
    sign out a user against the Appwrite backend, and the properties of
    their orchestration: what is stored, which cookie is set, which requests
    are issued and how failures of the backend travel to the caller.

    The actions are sequential glue around awaited SDK calls.  They are
    modelled in a state-and-exception monad over a [World] holding the users
    collection, the cookie jar of the request, the console and the history of
    requests issued to the backend.  What the backend answers is not decided
    by this code: it is a [Backend] oracle, a function of the request history,
    so every theorem below quantifies over every behaviour of the service. *)

From stdpp Require Import gmap strings list.

Open Scope string_scope.

(** ** JavaScript completions *)

(** What a [throw] carries.  [redirect] of next/navigation unwinds the stack
    with a dedicated error, kept apart from ordinary ones. *)
Inductive Thrown : Type :=
  | JsError (message : string)
  | NextRedirect (url : string).

Inductive Completion (A : Type) : Type :=
  | Returned (a : A)
  | Threw (e : Thrown).
Arguments Returned {A} a.
Arguments Threw {A} e.

(** ** Data *)

(** A document of the users collection, with the fields [createAccount]
    writes. *)
Record Document : Type := mkDocument {
  doc_id : string;          (* $id *)
  fullName : string;
  email : string;
  avatar : string;
  accountId : string
}.

(** The result of [databases.listDocuments]. *)
Record DocumentList : Type := mkDocumentList {
  total : nat;
  documents : list Document
}.

(** [Query.equal(attribute, values)]. *)
Inductive Query : Type :=
  | Query_equal (attribute : string) (values : list string).

(** The result of [account.createSession]. *)
Record Session : Type := mkSession {
  session_id : string;      (* $id *)
  secret : string
}.

Inductive SameSite : Type := Strict | Lax | NoSameSite.

Record Cookie : Type := mkCookie {
  value : string;
  path : string;
  httpOnly : bool;
  sameSite : SameSite;
  secure : bool
}.

(** A line of [console.log]. *)
Inductive LogLine : Type :=
  | LogError (error : Thrown) (message : string)
  | LogText (message : string).

(** A request issued to what lies outside this file. *)
Inductive Call : Type :=
  | AdminClient
  | SessionClient
  | ListDocuments (queries : list Query)
  | CreateDocument (d : Document)
  | CreateEmailToken (userId : string) (address : string)
  | CreateSession (userId : string) (password : string)
  | AccountGet
  | DeleteSession (sessionId : string).

(** The answers of the backend.  Each one is a function of the history of
    requests, the request being answered at its head. [createEmailToken]
    answers with the [userId] property of the token, which JavaScript allows
    to be absent. [unique] is the supply of [ID.unique()]. *)
Record Backend : Type := mkBackend {
  unique : nat -> string;
  adminClientResp : list Call -> Thrown + unit;
  sessionClientResp : list Call -> Thrown + unit;
  listDocumentsResp : list Call -> Thrown + unit;
  createDocumentResp : list Call -> Thrown + unit;
  createEmailTokenResp : list Call -> Thrown + option string;
  createSessionResp : list Call -> Thrown + Session;
  accountGetResp : list Call -> Thrown + string;
  deleteSessionResp : list Call -> Thrown + unit
}.

Record World : Type := mkWorld {
  users : list Document;          (* the users collection, in listing order *)
  jar : gmap string Cookie;       (* cookies() of the request *)
  console : list LogLine;         (* most recent line first *)
  calls : list Call;              (* most recent request first *)
  minted : nat                    (* identifiers drawn from ID.unique() *)
}.

Definition set_users (f : list Document -> list Document) (w : World) : World :=
  mkWorld (f (users w)) (jar w) (console w) (calls w) (minted w).
Definition set_jar (f : gmap string Cookie -> gmap string Cookie) (w : World) : World :=
  mkWorld (users w) (f (jar w)) (console w) (calls w) (minted w).
Definition set_console (f : list LogLine -> list LogLine) (w : World) : World :=
  mkWorld (users w) (jar w) (f (console w)) (calls w) (minted w).
Definition set_calls (f : list Call -> list Call) (w : World) : World :=
  mkWorld (users w) (jar w) (console w) (f (calls w)) (minted w).
Definition set_minted (f : nat -> nat) (w : World) : World :=
  mkWorld (users w) (jar w) (console w) (calls w) (f (minted w)).

(** ** The monad of an action *)

Definition M (A : Type) : Type := World -> Completion A * World.

Definition ret {A} (a : A) : M A := fun w => (Returned a, w).

Definition bind {A B} (m : M A) (k : A -> M B) : M B :=
  fun w => match m w with
           | (Returned a, w') => k a w'
           | (Threw e, w') => (Threw e, w')
           end.

Definition throw {A} (e : Thrown) : M A := fun w => (Threw e, w).

(** [try { m } catch (error) { h error }] *)
Definition try_catch {A} (m : M A) (h : Thrown -> M A) : M A :=
  fun w => match m w with
           | (Returned a, w') => (Returned a, w')
           | (Threw e, w') => h e w'
           end.

(** [try { m } finally { f }]: the finaliser always runs, and when it
    completes abruptly its completion replaces the one of the body. *)
Definition try_finally {A} (m : M A) (f : M unit) : M A :=
  fun w => match m w with
           | (r, w') => match f w' with
                        | (Returned _, w'') => (r, w'')
                        | (Threw e, w'') => (Threw e, w'')
                        end
           end.

Notation "'let*' x ':=' m 'in' k" := (bind m (fun x => k))
  (at level 10, x name, m at level 100, k at level 200).
Notation "m ';;;' k" := (bind m (fun _ => k))
  (at level 100, k at level 200, right associativity).

(** One request: it is appended to the history, and the answer the backend
    gives at that history completes the call. *)
Definition request {A} (c : Call) (resp : list Call -> Thrown + A) : M A :=
  fun w => let w' := set_calls (cons c) w in
           match resp (calls w') with
           | inr a => (Returned a, w')
           | inl e => (Threw e, w')
           end.

Definition SESSION_COOKIE : string := "appwrite-session".

(** ** The SDK, as the actions use it *)

Section Actions.

Variable b : Backend.

(** [avatarPlaceholderUrl] of [@/constants]; the earlier revision of the file
    writes the URL in place. *)
Variable avatarPlaceholderUrl : string.

Definition console_log (l : LogLine) : M unit :=
  fun w => (Returned tt, set_console (cons l) w).

(** [ID.unique()] *)
Definition ID_unique : M string :=
  fun w => (Returned (unique b (minted w)), set_minted S w).

(** [createAdminClient()] and [createSessionClient()] of [@/lib/appwrite]:
    the handles they return carry no data of their own here, only whether
    the client could be made. *)
Definition createAdminClient : M unit := request AdminClient (adminClientResp b).
Definition createSessionClient : M unit := request SessionClient (sessionClientResp b).

Definition attribute (name : string) (d : Document) : option string :=
  if String.eqb name "$id" then Some (doc_id d)
  else if String.eqb name "fullName" then Some (fullName d)
  else if String.eqb name "email" then Some (email d)
  else if String.eqb name "avatar" then Some (avatar d)
  else if String.eqb name "accountId" then Some (accountId d)
  else None.

Definition matches (d : Document) (q : Query) : bool :=
  match q with
  | Query_equal name values =>
      match attribute name d with
      | Some v => existsb (String.eqb v) values
      | None => false
      end
  end.

Definition satisfies (queries : list Query) (d : Document) : bool :=
  forallb (matches d) queries.

(** [databases.listDocuments(databaseId, usersCollectionId, queries)] *)
Definition listDocuments (queries : list Query) : M DocumentList :=
  request (ListDocuments queries) (listDocumentsResp b) ;;;
  fun w => let found := List.filter (satisfies queries) (users w) in
           (Returned (mkDocumentList (length found) found), w).

(** [databases.createDocument(databaseId, usersCollectionId, id, data)] *)
Definition createDocument (d : Document) : M unit :=
  request (CreateDocument d) (createDocumentResp b) ;;;
  fun w => (Returned tt, set_users (fun ds => (ds ++ [d])%list) w).

(** [account.createEmailToken(userId, email)], projected on [.userId] *)
Definition createEmailToken (userId address : string) : M (option string) :=
  request (CreateEmailToken userId address) (createEmailTokenResp b).

(** [account.createSession(accountId, password)] *)
Definition createSession (userId password : string) : M Session :=
  request (CreateSession userId password) (createSessionResp b).

(** [account.get()], projected on [.$id] *)
Definition account_get : M string := request AccountGet (accountGetResp b).

(** [account.deleteSession(sessionId)] *)
Definition deleteSession (sessionId : string) : M unit :=
  request (DeleteSession sessionId) (deleteSessionResp b).

(** [(await cookies()).set(name, value, options)] *)
Definition cookies_set (name : string) (c : Cookie) : M unit :=
  fun w => (Returned tt, set_jar (insert name c) w).

(** [(await cookies()).delete(name)] *)
Definition cookies_delete (name : string) : M unit :=
  fun w => (Returned tt, set_jar (delete name) w).

(** [redirect(url)] never returns. *)
Definition redirect {A} (url : string) : M A := throw (NextRedirect url).

(** ** The actions *)

Definition handleError {A} (error : Thrown) (message : string) : M A :=
  console_log (LogError error message) ;;;
  throw error.

Definition getUserByEmail (address : string) : M (option Document) :=
  createAdminClient ;;;
  let* result := listDocuments [Query_equal "email" [address]] in
  ret (if (0 <? total result)%nat then documents result !! 0 else None).

Definition sendEmailOTP (address : string) : M (option string) :=
  createAdminClient ;;;
  try_catch
    (let* id := ID_unique in
     let* userId := createEmailToken id address in
     ret userId)
    (fun error => handleError error "Failed to send email OTP").

(** [!accountId]: absent or empty. *)
Definition truthy (s : option string) : option string :=
  match s with
  | Some "" => None
  | Some v => Some v
  | None => None
  end.

Record AccountResult : Type := mkAccountResult { account_accountId : string }.

Definition createAccount (name address : string) : M AccountResult :=
  let* existingUser := getUserByEmail address in
  let* accountId := sendEmailOTP address in
  match truthy accountId with
  | None => throw (JsError "Failed to send an OTP")
  | Some accountId =>
      match existingUser with
      | None =>
          createAdminClient ;;;
          let* id := ID_unique in
          createDocument (mkDocument id name address avatarPlaceholderUrl accountId)
      | Some _ => ret tt
      end ;;;
      ret (mkAccountResult accountId)
  end.

Record SessionResult : Type := mkSessionResult { sessionId : string }.

Definition verifySecret (userId password : string) : M SessionResult :=
  try_catch
    (createAdminClient ;;;
     let* session := createSession userId password in
     cookies_set SESSION_COOKIE (mkCookie (secret session) "/" true Strict true) ;;;
     ret (mkSessionResult (session_id session)))
    (fun error => handleError error "Failed to verify OTP").

Definition getCurrentUser : M (option Document) :=
  createSessionClient ;;;
  let* result := account_get in
  let* user := listDocuments [Query_equal "accountId" [result]] in
  if (total user <=? 0)%nat then ret None
  else ret (documents user !! 0).

Definition signOutUser : M unit :=
  createSessionClient ;;;
  try_finally
    (try_catch
       (deleteSession "current" ;;;
        cookies_delete SESSION_COOKIE ;;;
        console_log (LogText "User logged out successfully"))
       (fun error => handleError error "Failed to sign out user"))
    (redirect "/sign-in").

(** [{ accountId }] or [{ accountId: null, error }] *)
Record SignInResult : Type := mkSignInResult {
  signin_accountId : option string;
  signin_error : option string
}.

Definition signInUser (address : string) : M SignInResult :=
  try_catch
    (let* existingUser := getUserByEmail address in
     match existingUser with
     | Some u =>
         sendEmailOTP address ;;;
         ret (mkSignInResult (Some (accountId u)) None)
     | None => ret (mkSignInResult None (Some "User not found"))
     end)
    (fun error => handleError error "Failed to sign in user").

End Actions.

Arguments handleError {A} error message.
Arguments redirect {A} url.

(** ** Vocabulary of the properties *)

(** The profiles stored under an email, and under an account identifier, in
    listing order. *)
Definition profiles_of (address : string) (ds : list Document) : list Document :=
  List.filter (fun d => String.eqb (email d) address) ds.

Definition profiles_of_account (id : string) (ds : list Document) : list Document :=
  List.filter (fun d => String.eqb (accountId d) id) ds.

(** At most one profile per email. *)
Definition unique_emails (ds : list Document) : Prop :=
  forall address, length (profiles_of address ds) <= 1.

Definition is_passcode_request (c : Call) : bool :=
  match c with
  | CreateEmailToken _ _ => true
  | _ => false
  end.

(** How many passcodes the backend was asked to send so far. *)
Definition passcode_requests (w : World) : nat :=
  length (List.filter is_passcode_request (calls w)).

Definition cookie_absent (name : string) (w : World) : Prop :=
  jar w !! name = None.

(** Passcode issuance failed: [sendEmailOTP] threw, or what it returned is
    absent or empty. *)
Definition issuance_failed (c : Completion (option string)) : Prop :=
  match c with
  | Threw _ => True
  | Returned u => truthy u = None
  end.

(** The exported actions, and the world each one leaves behind. *)
Inductive Action : Type :=
  | SendEmailOTP (address : string)
  | CreateAccount (name address : string)
  | VerifySecret (userId password : string)
  | GetCurrentUser
  | SignOutUser
  | SignInUser (address : string).

Definition run (b : Backend) (avatarUrl : string) (a : Action) (w : World) : World :=
  match a with
  | SendEmailOTP address => snd (sendEmailOTP b address w)
  | CreateAccount name address => snd (createAccount b avatarUrl name address w)
  | VerifySecret userId password => snd (verifySecret b userId password w)
  | GetCurrentUser => snd (getCurrentUser b w)
  | SignOutUser => snd (signOutUser b w)
  | SignInUser address => snd (signInUser b address w)
  end.

(** One action, against any behaviour of the backend. *)
Definition step (avatarUrl : string) (w w' : World) : Prop :=
  exists b a, w' = run b avatarUrl a w.

(** A backend with a different passcode service and everything else alike. *)
Definition with_token (b : Backend) (f : list Call -> Thrown + option string) : Backend :=
  mkBackend (unique b) (adminClientResp b) (sessionClientResp b)
    (listDocumentsResp b) (createDocumentResp b) f
    (createSessionResp b) (accountGetResp b) (deleteSessionResp b).

(** Session creation as [verifySecret] attempts it: the admin client, then
    [account.createSession]. *)
Definition session_creation (b : Backend) (w : World) (userId password : string)
  : Thrown + Session :=
  match adminClientResp b (AdminClient :: calls w) with
  | inl e => inl e
  | inr _ => createSessionResp b (CreateSession userId password :: AdminClient :: calls w)
  end.

(** ** Sample backends and worlds *)

(** The avatar every new profile gets: the URL the earlier revision of the
    file writes in place of [avatarPlaceholderUrl]. *)
Definition default_avatar : string :=
  "https://th.bing.com/th/id/OIP.hGSCbXlcOjL_9mmzerqAbQHaHa?w=181&h=181&c=7&r=0&o=5&pid=1.7".

Definition ada : Document :=
  mkDocument "doc-ada" "Ada Lovelace" "ada@example.org" default_avatar "acc-ada".

(** A backend that accepts every request. *)
Definition steady : Backend :=
  mkBackend (fun _ => "fresh")
    (fun _ => inr ()) (fun _ => inr ()) (fun _ => inr ()) (fun _ => inr ())
    (fun _ => inr (Some "acc-grace"))
    (fun _ => inr (mkSession "sess-1" "s3cr3t"))
    (fun _ => inr "acc-ada")
    (fun _ => inr ()).

Definition failing (message : string) {A} : list Call -> Thrown + A :=
  fun _ => inl (JsError message).

(** The backend refuses to delete the session. *)
Definition refusing_deletion : Backend :=
  mkBackend (unique steady) (adminClientResp steady) (sessionClientResp steady)
    (listDocumentsResp steady) (createDocumentResp steady) (createEmailTokenResp steady)
    (createSessionResp steady) (accountGetResp steady) (failing "session not found").

(** The backend refuses the passcode. *)
Definition refusing_session : Backend :=
  mkBackend (unique steady) (adminClientResp steady) (sessionClientResp steady)
    (listDocumentsResp steady) (createDocumentResp steady) (createEmailTokenResp steady)
    (failing "invalid token") (accountGetResp steady) (deleteSessionResp steady).

(** The backend creates a session and leaves its identifier empty. *)
Definition unnamed_session : Backend :=
  mkBackend (unique steady) (adminClientResp steady) (sessionClientResp steady)
    (listDocumentsResp steady) (createDocumentResp steady) (createEmailTokenResp steady)
    (fun _ => inr (mkSession "" "s3cr3t")) (accountGetResp steady)
    (deleteSessionResp steady).

(** There is no session to resolve. *)
Definition signed_out : Backend :=
  mkBackend (unique steady) (adminClientResp steady) (failing "No session")
    (listDocumentsResp steady) (createDocumentResp steady) (createEmailTokenResp steady)
    (createSessionResp steady) (accountGetResp steady) (deleteSessionResp steady).

(** The session belongs to an account without a profile. *)
Definition stranger : Backend :=
  mkBackend (unique steady) (adminClientResp steady) (sessionClientResp steady)
    (listDocumentsResp steady) (createDocumentResp steady) (createEmailTokenResp steady)
    (createSessionResp steady) (fun _ => inr "acc-nobody") (deleteSessionResp steady).

(** The session client is made, but the backend no longer knows the session. *)
Definition expired_session : Backend :=
  mkBackend (unique steady) (adminClientResp steady) (sessionClientResp steady)
    (listDocumentsResp steady) (createDocumentResp steady) (createEmailTokenResp steady)
    (createSessionResp steady) (failing "session expired") (deleteSessionResp steady).

(** The passcode service is down. *)
Definition unreachable_mail : Backend := with_token steady (failing "mail service down").

(** The passcode service answers with an empty user identifier. *)
Definition blank_token : Backend := with_token steady (fun _ => inr (Some "")).

Definition nobody : World := mkWorld [] ∅ [] [] 0.

(** Ada is registered and holds a session cookie. *)
Definition ada_signed_in : World :=
  mkWorld [ada] {[ SESSION_COOKIE := mkCookie "s3cr3t" "/" true Strict true ]} [] [] 0.

Definition grace_address : string := "grace@example.org".

(** The worlds a registration of Grace, and a sign-in of Ada, go through. *)
Definition grace_looked_up : World := snd (getUserByEmail steady grace_address nobody).
Definition grace_mailed : World := snd (sendEmailOTP steady grace_address grace_looked_up).
Definition grace : Document :=
  mkDocument "fresh" "Grace Hopper" grace_address default_avatar "acc-grace".
Definition grace_registered : World :=
  run steady default_avatar (CreateAccount "Grace Hopper" grace_address) nobody.
Definition grace_twice : World :=
  run steady default_avatar (CreateAccount "G. Hopper" grace_address) grace_registered.

Definition ada_looked_up : World :=
  snd (getUserByEmail steady (email ada) ada_signed_in).
Definition ada_mailed : World :=
  snd (sendEmailOTP steady (email ada) ada_looked_up).

(** The admin client cannot be made. *)
Definition no_admin : Backend :=
  mkBackend (unique steady) (failing "missing API key") (sessionClientResp steady)
    (listDocumentsResp steady) (createDocumentResp steady) (createEmailTokenResp steady)
    (createSessionResp steady) (accountGetResp steady) (deleteSessionResp steady).

(** The database cannot be listed. *)
Definition broken_listing : Backend :=
  mkBackend (unique steady) (adminClientResp steady) (sessionClientResp steady)
    (failing "database unavailable") (createDocumentResp steady)
    (createEmailTokenResp steady)
    (createSessionResp steady) (accountGetResp steady) (deleteSessionResp steady).

(** The database refuses new documents. *)
Definition broken_store : Backend :=
  mkBackend (unique steady) (adminClientResp steady) (sessionClientResp steady)
    (listDocumentsResp steady) (failing "document rejected")
    (createEmailTokenResp steady)
    (createSessionResp steady) (accountGetResp steady) (deleteSessionResp steady).

(** A later session of the same account. *)
Definition renewing : Backend :=
  mkBackend (unique steady) (adminClientResp steady) (sessionClientResp steady)
    (listDocumentsResp steady) (createDocumentResp steady) (createEmailTokenResp steady)
    (fun _ => inr (mkSession "sess-2" "n3w-s3cr3t")) (accountGetResp steady)
    (deleteSessionResp steady).

(** A cookie of the application that is not the session. *)
Definition with_theme (w : World) : World :=
  set_jar (insert "theme" (mkCookie "dark" "/" false Lax false)) w.

Definition ada_verified : World := snd (verifySecret steady "acc-ada" "482913" nobody).

(** What [createAccount] writes in every profile: the account identifier it
    let through the guard, and the placeholder avatar. *)
Definition sound_profile (avatarUrl : string) (d : Document) : Prop :=
  accountId d <> "" /\ avatar d = avatarUrl.

(** The actions that write to the cookie jar. *)
Definition touches_cookies (a : Action) : bool :=
  match a with
  | VerifySecret _ _ | SignOutUser => true
  | _ => false
  end.

(** The requests each action may issue: the clients it makes and the calls
    of the SDK it awaits, with the arguments it passes. *)
Definition allowed (a : Action) (c : Call) : Prop :=
  match a, c with
  | SendEmailOTP _, AdminClient => True
  | SendEmailOTP address, CreateEmailToken _ to => to = address
  | CreateAccount _ _, AdminClient => True
  | CreateAccount _ address, ListDocuments qs => qs = [Query_equal "email" [address]]
  | CreateAccount _ address, CreateEmailToken _ to => to = address
  | CreateAccount name address, CreateDocument d =>
      fullName d = name /\ email d = address
  | VerifySecret _ _, AdminClient => True
  | VerifySecret userId password, CreateSession u p => u = userId /\ p = password
  | GetCurrentUser, SessionClient => True
  | GetCurrentUser, AccountGet => True
  | GetCurrentUser, ListDocuments qs => exists id, qs = [Query_equal "accountId" [id]]
  | SignOutUser, SessionClient => True
  | SignOutUser, DeleteSession sessionId => sessionId = "current"
  | SignInUser _, AdminClient => True
  | SignInUser address, ListDocuments qs => qs = [Query_equal "email" [address]]
  | SignInUser address, CreateEmailToken _ to => to = address
  | _, _ => False
  end.

(** The computation only adds requests to the history, each of them in [P]. *)
Definition emits {A} (P : Call -> Prop) (m : M A) : Prop :=
  forall w, exists new, calls (snd (m w)) = (new ++ calls w)%list /\ Forall P new.

(** ** Frame rules: what a computation leaves alone *)

Definition preserves {X A} (f : World -> X) (m : M A) : Prop :=
  forall w, f (snd (m w)) = f w.

Section Frame.

Context {X : Type} (f : World -> X).

Lemma preserves_ret {A} (a : A) : preserves f (ret a).
Proof. intros w. reflexivity. Qed.

Lemma preserves_throw {A} e : preserves f (@throw A e).
Proof. intros w. reflexivity. Qed.

Lemma preserves_bind {A B} (m : M A) (k : A -> M B) :
  preserves f m -> (forall a, preserves f (k a)) -> preserves f (bind m k).
Proof.
  intros Hm Hk w. unfold bind. specialize (Hm w).
  destruct (m w) as [[a|e] w1]; simpl in *.
  - rewrite Hk. exact Hm.
  - exact Hm.
Qed.

Lemma preserves_try_catch {A} (m : M A) h :
  preserves f m -> (forall e, preserves f (h e)) -> preserves f (try_catch m h).
Proof.
  intros Hm Hh w. unfold try_catch. specialize (Hm w).
  destruct (m w) as [[a|e] w1]; simpl in *.
  - exact Hm.
  - rewrite Hh. exact Hm.
Qed.

Lemma preserves_try_finally {A} (m : M A) fin :
  preserves f m -> preserves f fin -> preserves f (try_finally m fin).
Proof.
  intros Hm Hf w. unfold try_finally. specialize (Hm w).
  destruct (m w) as [r w1]; simpl in *. specialize (Hf w1).
  destruct (fin w1) as [[u|e] w2]; simpl in *; congruence.
Qed.

Lemma preserves_request {A} c (resp : list Call -> Thrown + A) :
  (forall w, f (set_calls (cons c) w) = f w) -> preserves f (request c resp).
Proof.
  intros Hc w. unfold request.
  destruct (resp _); simpl; apply Hc.
Qed.

Lemma preserves_if {A} (c : bool) (m1 m2 : M A) :
  preserves f m1 -> preserves f m2 -> preserves f (if c then m1 else m2).
Proof. destruct c; auto. Qed.

End Frame.

Ltac head_of t :=
  match t with
  | ?g _ => head_of g
  | _ => t
  end.

(** Unfolds the actions down to the primitives and applies the frame rules;
    what remains are the primitives that do touch the observation. *)
Ltac frame :=
  repeat first
    [ progress intros
    | apply preserves_bind
    | apply preserves_try_catch
    | apply preserves_try_finally
    | apply preserves_ret
    | apply preserves_throw
    | apply preserves_if
    | apply preserves_request; intros; reflexivity
    | solve [ let w := fresh "w" in intros w; reflexivity ]
    | match goal with |- preserves _ (match ?x with _ => _ end) => destruct x end
    | match goal with |- preserves _ ?m =>
        let h := head_of m in unfold h
      end ].

(** ** The primitives and the lookup *)

Lemma users_getUserByEmail b address : preserves users (getUserByEmail b address).
Proof. frame. Qed.

Lemma users_sendEmailOTP b address : preserves users (sendEmailOTP b address).
Proof. frame. Qed.

Lemma users_verifySecret b userId password :
  preserves users (verifySecret b userId password).
Proof. frame. Qed.

Lemma users_getCurrentUser b : preserves users (getCurrentUser b).
Proof. frame. Qed.

Lemma users_signOutUser b : preserves users (signOutUser b).
Proof. frame. Qed.

Lemma users_signInUser b address : preserves users (signInUser b address).
Proof. frame. Qed.

Lemma passcodes_getUserByEmail b address :
  preserves passcode_requests (getUserByEmail b address).
Proof. frame. Qed.

Lemma satisfies_email address d :
  satisfies [Query_equal "email" [address]] d = String.eqb (email d) address.
Proof.
  unfold satisfies, matches. cbn.
  rewrite orb_false_r, andb_true_r. reflexivity.
Qed.

Lemma satisfies_accountId id d :
  satisfies [Query_equal "accountId" [id]] d = String.eqb (accountId d) id.
Proof.
  unfold satisfies, matches. cbn.
  rewrite orb_false_r, andb_true_r. reflexivity.
Qed.

Lemma listing_email address ds :
  List.filter (satisfies [Query_equal "email" [address]]) ds = profiles_of address ds.
Proof. apply List.filter_ext. intros d. apply satisfies_email. Qed.

Lemma listing_accountId id ds :
  List.filter (satisfies [Query_equal "accountId" [id]]) ds = profiles_of_account id ds.
Proof. apply List.filter_ext. intros d. apply satisfies_accountId. Qed.

(** When the lookup returns, it returns the first profile stored under the
    email, and the world differs by the two requests it made. *)
Lemma getUserByEmail_returned b address w r w1 :
  getUserByEmail b address w = (Returned r, w1) ->
  r = head (profiles_of address (users w)) /\
  w1 = set_calls (fun h => ListDocuments [Query_equal "email" [address]] :: AdminClient :: h) w.
Proof.
  unfold getUserByEmail, createAdminClient, listDocuments, request, bind, ret. cbn.
  destruct (adminClientResp b _) as [e|[]]; [discriminate|].
  destruct (listDocumentsResp b _) as [e|[]]; [discriminate|]. cbn.
  rewrite listing_email.
  intros [= <- <-]. split; [|reflexivity].
  destruct (profiles_of address (users w)); reflexivity.
Qed.

(** When the send returns, one token request was made, and what it returns
    is what the backend answered. *)
Lemma sendEmailOTP_returned b address w u w2 :
  sendEmailOTP b address w = (Returned u, w2) ->
  createEmailTokenResp b
    (CreateEmailToken (unique b (minted w)) address :: AdminClient :: calls w) = inr u /\
  w2 = set_minted S
         (set_calls (fun h => CreateEmailToken (unique b (minted w)) address
                              :: AdminClient :: h) w).
Proof.
  unfold sendEmailOTP, createAdminClient, createEmailToken, ID_unique, handleError,
    console_log, request, try_catch, bind, ret, throw. cbn.
  destruct (adminClientResp b _) as [e|[]]; [discriminate|]. cbn.
  destruct (createEmailTokenResp b _) as [e|u'] eqn:E; [discriminate|]. cbn.
  intros [= <- <-]. split; reflexivity.
Qed.

(** Once the admin client is made, the send asks for exactly one passcode,
    whatever the backend answers to that. *)
Lemma sendEmailOTP_passcodes b address w :
  adminClientResp b (AdminClient :: calls w) = inr () ->
  passcode_requests (snd (sendEmailOTP b address w)) = S (passcode_requests w).
Proof.
  intros Hc.
  unfold sendEmailOTP, createAdminClient, createEmailToken, ID_unique, handleError,
    console_log, request, try_catch, bind, ret, throw. cbn.
  rewrite Hc. cbn.
  destruct (createEmailTokenResp b _); reflexivity.
Qed.

(** ** signOutUser *)

(** C1, as amended: once the session client is made, the session cookie is
    absent after [signOutUser] when the backend accepted the deletion of the
    session; when the deletion failed the cookie jar is left as it was, the
    deletion of the cookie being sequenced after it in the [try] block. *)
Theorem signOutUser_cookie b w :
  sessionClientResp b (SessionClient :: calls w) = inr () ->
  match deleteSessionResp b (DeleteSession "current" :: SessionClient :: calls w) with
  | inr _ => cookie_absent SESSION_COOKIE (snd (signOutUser b w))
  | inl _ => jar (snd (signOutUser b w)) = jar w
  end.
Proof.
  intros Hc.
  unfold signOutUser, createSessionClient, deleteSession, cookies_delete, handleError,
    console_log, redirect, request, try_finally, try_catch, bind, throw, cookie_absent.
  cbn. rewrite Hc. cbn.
  destruct (deleteSessionResp b _) as [e|[]]; cbn.
  - reflexivity.
  - apply lookup_delete_eq.
Qed.

(** C2, as amended: once the session client is made, [signOutUser] ends in
    the redirect to [/sign-in], whether the deletion of the session succeeded
    or failed; the client is made before the [try], so an execution in which
    it cannot be made is not covered by the [finally]. *)
Theorem signOutUser_redirects b w :
  sessionClientResp b (SessionClient :: calls w) = inr () ->
  fst (signOutUser b w) = Threw (NextRedirect "/sign-in").
Proof.
  intros Hc.
  unfold signOutUser, createSessionClient, deleteSession, cookies_delete, handleError,
    console_log, redirect, request, try_finally, try_catch, bind, throw.
  cbn. rewrite Hc. cbn.
  destruct (deleteSessionResp b _) as [e|[]]; reflexivity.
Qed.

(** ** verifySecret *)

(** C3, as amended: when the session is created, [verifySecret] stores its
    secret in the session cookie, with path [/], [httpOnly], [secure] and
    [sameSite] strict, and returns the identifier of the session as the
    backend issued it, without looking at it; when the creation fails,
    [verifySecret] throws what the creation threw and the cookie jar is
    unchanged. *)
Theorem verifySecret_cookie b w userId password :
  (forall s,
      session_creation b w userId password = inr s ->
      fst (verifySecret b userId password w)
      = Returned (mkSessionResult (session_id s)) /\
      jar (snd (verifySecret b userId password w))
      = <[SESSION_COOKIE := mkCookie (secret s) "/" true Strict true]> (jar w)) /\
  (forall e,
      session_creation b w userId password = inl e ->
      fst (verifySecret b userId password w) = Threw e /\
      jar (snd (verifySecret b userId password w)) = jar w).
Proof.
  unfold session_creation, verifySecret, createAdminClient, createSession, cookies_set,
    handleError, console_log, request, try_catch, bind, ret, throw. cbn.
  split.
  - intros s Hs.
    destruct (adminClientResp b _) as [e|[]]; [discriminate|]. cbn.
    rewrite Hs. cbn. split; reflexivity.
  - intros e He.
    destruct (adminClientResp b _) as [e'|[]]; cbn.
    + injection He as ->. split; reflexivity.
    + rewrite He. cbn. split; reflexivity.
Qed.

(** ** createAccount *)

Lemma truthy_nonempty u : u <> "" -> truthy (Some u) = Some u.
Proof. destruct u; [congruence | reflexivity]. Qed.

Lemma truthy_Some u v : truthy u = Some v -> u = Some v /\ v <> "".
Proof.
  destruct u as [[|c u]|]; cbn; intros [= <-]. split; [reflexivity | discriminate].
Qed.

Lemma profiles_of_snoc address ds d :
  profiles_of address (ds ++ [d])
  = (profiles_of address ds ++ (if String.eqb (email d) address then [d] else []))%list.
Proof. unfold profiles_of. rewrite List.filter_app. reflexivity. Qed.

(** [createAccount], one awaited call at a time. *)
Lemma createAccount_eq b avatarUrl name address w :
  createAccount b avatarUrl name address w
  = match getUserByEmail b address w with
    | (Returned existingUser, w1) =>
        match sendEmailOTP b address w1 with
        | (Returned accountId, w2) =>
            match truthy accountId with
            | None => throw (JsError "Failed to send an OTP")
            | Some accountId =>
                match existingUser with
                | None =>
                    createAdminClient b ;;;
                    let* id := ID_unique b in
                    createDocument b (mkDocument id name address avatarUrl accountId)
                | Some _ => ret ()
                end ;;;
                ret (mkAccountResult accountId)
            end w2
        | (Threw e, w2) => (Threw e, w2)
        end
    | (Threw e, w1) => (Threw e, w1)
    end.
Proof. reflexivity. Qed.

(** C4: when the lookup returns and a passcode is issued under a non-empty
    account identifier, [createAccount] returns that identifier.  For an email
    nobody registered, and a backend that accepts the new document, the users
    collection grows by exactly one profile, which carries the email, the full
    name, the default avatar and the account identifier, and is then the only
    profile of that email; for a registered email the collection is unchanged. *)
Theorem createAccount_profile b avatarUrl name address w existing w1 u w2 :
  getUserByEmail b address w = (Returned existing, w1) ->
  sendEmailOTP b address w1 = (Returned (Some u), w2) ->
  u <> "" ->
  let doc := mkDocument (unique b (minted w2)) name address avatarUrl u in
  let done := createAccount b avatarUrl name address w in
  (profiles_of address (users w) = [] ->
   adminClientResp b (AdminClient :: calls w2) = inr () ->
   createDocumentResp b (CreateDocument doc :: AdminClient :: calls w2) = inr () ->
   fst done = Returned (mkAccountResult u) /\
   users (snd done) = (users w ++ [doc])%list /\
   profiles_of address (users (snd done)) = [doc]) /\
  (profiles_of address (users w) <> [] ->
   fst done = Returned (mkAccountResult u) /\
   users (snd done) = users w).
Proof.
  intros Hlookup Hsend Hu doc done.
  pose proof (users_getUserByEmail b address w) as U1.
  pose proof (users_sendEmailOTP b address w1) as U2.
  rewrite Hlookup in U1. rewrite Hsend in U2. cbn in U1, U2.
  apply getUserByEmail_returned in Hlookup as Hfound. destruct Hfound as [-> _].
  subst done. rewrite createAccount_eq, Hlookup, Hsend.
  rewrite (truthy_nonempty u Hu).
  split.
  - intros Hfree Hadmin Hcreate. rewrite Hfree. cbn.
    unfold createAdminClient, ID_unique, createDocument, request, bind, ret. cbn.
    rewrite Hadmin. cbn. fold doc. rewrite Hcreate. cbn.
    rewrite U2, U1. repeat split.
    change (profiles_of address (users w ++ [doc]) = [doc]).
    rewrite profiles_of_snoc, Hfree. cbn. rewrite String.eqb_refl. reflexivity.
  - intros Hreg. destruct (profiles_of address (users w)) as [|d ds]; [congruence|].
    cbn. split; [reflexivity | congruence].
Qed.

(** Whatever [createAccount] returns carries a non-empty account identifier:
    the guard on [!accountId] lets nothing else through. *)
Lemma createAccount_returned_nonempty b avatarUrl name address w r w' :
  createAccount b avatarUrl name address w = (Returned r, w') ->
  account_accountId r <> "".
Proof.
  rewrite createAccount_eq.
  destruct (getUserByEmail b address w) as [[existing|e] w1]; [|discriminate].
  destruct (sendEmailOTP b address w1) as [[u|e] w2]; [|discriminate].
  destruct (truthy u) as [id|] eqn:E; [|discriminate].
  apply truthy_Some in E as [_ Hid].
  match goal with
  | |- bind ?store _ w2 = _ -> _ =>
      unfold bind at 1; destruct (store w2) as [[[]|e] w3]; [|discriminate]
  end.
  intros [= <- _]. exact Hid.
Qed.

(** C5: when the lookup returns, with a profile or with none, and the admin
    client of the send is made, [createAccount] asks the backend for exactly
    one passcode, whatever the backend answers afterwards. *)
Theorem createAccount_one_passcode b avatarUrl name address w existing w1 :
  getUserByEmail b address w = (Returned existing, w1) ->
  adminClientResp b (AdminClient :: calls w1) = inr () ->
  passcode_requests (snd (createAccount b avatarUrl name address w))
  = S (passcode_requests w).
Proof.
  intros Hlookup Hadmin.
  pose proof (passcodes_getUserByEmail b address w) as P1.
  rewrite Hlookup in P1. cbn in P1.
  pose proof (sendEmailOTP_passcodes b address w1 Hadmin) as P2.
  rewrite createAccount_eq, Hlookup.
  destruct (sendEmailOTP b address w1) as [[u|e] w2]; cbn in P2 |- *;
    [|congruence].
  rewrite <- P1, <- P2.
  destruct (truthy u) as [id|]; [|reflexivity].
  assert (Hstore : preserves passcode_requests
    (match existing with
     | None =>
         createAdminClient b ;;;
         let* id0 := ID_unique b in
         createDocument b (mkDocument id0 name address avatarUrl id)
     | Some _ => ret ()
     end ;;; ret (mkAccountResult id))) by frame.
  apply Hstore.
Qed.

(** C6: when the lookup returns and the passcode issuance fails, because
    [sendEmailOTP] throws or because what it returns is absent or empty,
    [createAccount] throws, the error of the send in the first case and
    [Failed to send an OTP] in the second, and the users collection is
    unchanged. *)
Theorem createAccount_issuance_failed b avatarUrl name address w existing w1 :
  getUserByEmail b address w = (Returned existing, w1) ->
  issuance_failed (fst (sendEmailOTP b address w1)) ->
  fst (createAccount b avatarUrl name address w)
  = Threw (match fst (sendEmailOTP b address w1) with
           | Threw e => e
           | Returned _ => JsError "Failed to send an OTP"
           end) /\
  users (snd (createAccount b avatarUrl name address w)) = users w.
Proof.
  intros Hlookup Hfail.
  pose proof (users_getUserByEmail b address w) as U1.
  pose proof (users_sendEmailOTP b address) as U2.
  rewrite Hlookup in U1. cbn in U1.
  rewrite createAccount_eq, Hlookup. specialize (U2 w1).
  destruct (sendEmailOTP b address w1) as [[u|e] w2]; cbn in Hfail, U2 |- *.
  - rewrite Hfail. cbn. split; [reflexivity | congruence].
  - split; [reflexivity | congruence].
Qed.

(** ** getCurrentUser *)

Lemma head_filter_Some {A} (p : A -> bool) (l : list A) d :
  head (List.filter p l) = Some d -> In d l /\ p d = true.
Proof.
  intros H. apply List.filter_In.
  destruct (List.filter p l) as [|x xs]; [discriminate|].
  injection H as ->. left. reflexivity.
Qed.

Lemma head_filter_None {A} (p : A -> bool) (l : list A) :
  head (List.filter p l) = None -> forall d, In d l -> p d = false.
Proof.
  intros H d Hd. destruct (p d) eqn:E; [|reflexivity].
  assert (Hin : In d (List.filter p l)) by (apply List.filter_In; auto).
  destruct (List.filter p l); [destruct Hin | discriminate].
Qed.

(** C7: [getCurrentUser] throws, uncaught and unlogged, the error of the
    session client or of [account.get] when there is no session to resolve;
    with a session whose account has no profile it returns [null]; with a
    session whose account has one it returns the profile, the first stored
    under the account identifier of the session. *)
Theorem getCurrentUser_cases b w :
  let h1 := SessionClient :: calls w in
  let h2 := AccountGet :: h1 in
  (forall e,
      sessionClientResp b h1 = inl e ->
      getCurrentUser b w = (Threw e, set_calls (fun _ => h1) w)) /\
  (forall e,
      sessionClientResp b h1 = inr () ->
      accountGetResp b h2 = inl e ->
      getCurrentUser b w = (Threw e, set_calls (fun _ => h2) w)) /\
  (forall id,
      sessionClientResp b h1 = inr () ->
      accountGetResp b h2 = inr id ->
      listDocumentsResp b (ListDocuments [Query_equal "accountId" [id]] :: h2) = inr () ->
      (profiles_of_account id (users w) = [] ->
       fst (getCurrentUser b w) = Returned None) /\
      (profiles_of_account id (users w) <> [] ->
       exists d, fst (getCurrentUser b w) = Returned (Some d) /\
                 head (profiles_of_account id (users w)) = Some d /\
                 In d (users w) /\ accountId d = id)).
Proof.
  intros h1 h2. subst h1 h2.
  unfold getCurrentUser, createSessionClient, account_get, listDocuments, request,
    bind, ret. cbn.
  split; [|split].
  - intros e ->. reflexivity.
  - intros e -> H2. cbn. rewrite H2. reflexivity.
  - intros id -> H2 H3. cbn. rewrite H2. cbn. rewrite H3. cbn.
    rewrite listing_accountId.
    split.
    + intros ->. reflexivity.
    + intros Hne. destruct (profiles_of_account id (users w)) as [|d ds] eqn:E;
        [congruence|].
      exists d. cbn. repeat split.
      * apply (head_filter_Some (fun d => String.eqb (accountId d) id) (users w)).
        unfold profiles_of_account in E. rewrite E. reflexivity.
      * apply String.eqb_eq.
        apply (head_filter_Some (fun d => String.eqb (accountId d) id) (users w)).
        unfold profiles_of_account in E. rewrite E. reflexivity.
Qed.

(** ** signInUser *)

(** [signInUser], one awaited call at a time. *)
Lemma signInUser_eq b address w :
  signInUser b address w
  = match getUserByEmail b address w with
    | (Returned (Some u), w1) =>
        match sendEmailOTP b address w1 with
        | (Returned _, w2) => (Returned (mkSignInResult (Some (accountId u)) None), w2)
        | (Threw e, w2) => handleError e "Failed to sign in user" w2
        end
    | (Returned None, w1) =>
        (Returned (mkSignInResult None (Some "User not found")), w1)
    | (Threw e, w1) => handleError e "Failed to sign in user" w1
    end.
Proof.
  unfold signInUser, try_catch, bind.
  destruct (getUserByEmail b address w) as [[[d|]|e] w1]; try reflexivity.
  destruct (sendEmailOTP b address w1) as [[u|e] w2]; reflexivity.
Qed.

Lemma sendEmailOTP_returned_passcodes b address w u w2 :
  sendEmailOTP b address w = (Returned u, w2) ->
  passcode_requests w2 = S (passcode_requests w).
Proof.
  intros H. apply sendEmailOTP_returned in H as [_ ->]. reflexivity.
Qed.

(** C8: for an email with a profile, when the lookup and the send return,
    [signInUser] returns the account identifier of that profile, the first
    stored under the email, and nothing else, and one passcode was asked
    for; for an email without a profile, when the lookup returns,
    [signInUser] returns a null account identifier with the error
    [User not found], without throwing, and no passcode was asked for. *)
Theorem signInUser_cases b address w existing w1 :
  getUserByEmail b address w = (Returned existing, w1) ->
  (profiles_of address (users w) <> [] ->
   forall u w2,
     sendEmailOTP b address w1 = (Returned u, w2) ->
     exists d,
       head (profiles_of address (users w)) = Some d /\
       fst (signInUser b address w)
       = Returned (mkSignInResult (Some (accountId d)) None) /\
       passcode_requests (snd (signInUser b address w)) = S (passcode_requests w)) /\
  (profiles_of address (users w) = [] ->
   fst (signInUser b address w)
   = Returned (mkSignInResult None (Some "User not found")) /\
   passcode_requests (snd (signInUser b address w)) = passcode_requests w).
Proof.
  intros Hlookup.
  pose proof (passcodes_getUserByEmail b address w) as P1.
  rewrite Hlookup in P1. cbn in P1.
  apply getUserByEmail_returned in Hlookup as Hfound. destruct Hfound as [-> _].
  rewrite signInUser_eq, Hlookup.
  split.
  - intros Hreg u w2 Hsend.
    destruct (profiles_of address (users w)) as [|d ds]; [congruence|]. cbn.
    rewrite Hsend. exists d. cbn. split; [reflexivity|]. split; [reflexivity|].
    rewrite (sendEmailOTP_returned_passcodes _ _ _ _ _ Hsend). congruence.
  - intros ->. cbn. split; [reflexivity | exact P1].
Qed.

(** C10: for an email with a profile, the account identifier [signInUser]
    returns is the one stored in the first profile of that email; what the
    passcode service answered is dropped, so that a backend with any other
    passcode service, as long as its send returns too, yields the same
    result. *)
Theorem signInUser_accountId_of_profile b address w existing w1 u w2 d :
  getUserByEmail b address w = (Returned existing, w1) ->
  head (profiles_of address (users w)) = Some d ->
  sendEmailOTP b address w1 = (Returned u, w2) ->
  In d (users w) /\ email d = address /\
  fst (signInUser b address w) = Returned (mkSignInResult (Some (accountId d)) None) /\
  forall f u' w2',
    sendEmailOTP (with_token b f) address w1 = (Returned u', w2') ->
    fst (signInUser (with_token b f) address w) = fst (signInUser b address w).
Proof.
  intros Hlookup Hd Hsend.
  apply getUserByEmail_returned in Hlookup as Hfound. destruct Hfound as [-> _].
  rewrite Hd in Hlookup.
  destruct (head_filter_Some _ _ _ Hd) as [Hin Heq]. apply String.eqb_eq in Heq.
  split; [exact Hin|]. split; [exact Heq|].
  rewrite signInUser_eq, Hlookup, Hsend. split; [reflexivity|].
  intros f u' w2' Hsend'.
  rewrite signInUser_eq.
  change (getUserByEmail (with_token b f) address w) with (getUserByEmail b address w).
  rewrite Hlookup, Hsend'. reflexivity.
Qed.

(** ** One profile per email *)

Lemma head_None_nil {A} (l : list A) : head l = None -> l = [].
Proof. destruct l; [reflexivity | discriminate]. Qed.

(** What [createAccount] does to the users collection: nothing, or one
    profile appended under an email the lookup found no profile for. *)
Lemma createAccount_users b avatarUrl name address w :
  users (snd (createAccount b avatarUrl name address w)) = users w \/
  exists d,
    profiles_of address (users w) = [] /\
    email d = address /\
    users (snd (createAccount b avatarUrl name address w)) = (users w ++ [d])%list.
Proof.
  pose proof (users_getUserByEmail b address w) as U1.
  pose proof (users_sendEmailOTP b address) as U2.
  rewrite createAccount_eq.
  destruct (getUserByEmail b address w) as [[existing|e] w1] eqn:Hlookup;
    cbn in U1; [|left; exact U1].
  apply getUserByEmail_returned in Hlookup as [-> _].
  specialize (U2 w1).
  destruct (sendEmailOTP b address w1) as [[u|e] w2]; cbn in U2;
    [|left; cbn; congruence].
  destruct (truthy u) as [id|]; [|left; cbn; congruence].
  destruct (head (profiles_of address (users w))) as [d|] eqn:Hhead.
  - left. unfold bind, ret. cbn. congruence.
  - apply head_None_nil in Hhead.
    unfold createAdminClient, ID_unique, createDocument, request, bind, ret. cbn.
    destruct (adminClientResp b _) as [e|[]]; cbn; [left; congruence|].
    destruct (createDocumentResp b _) as [e|[]]; cbn; [left; congruence|].
    right. eexists. split; [exact Hhead|]. split; [|rewrite U2, U1; reflexivity].
    reflexivity.
Qed.

Lemma unique_emails_snoc ds d :
  unique_emails ds -> profiles_of (email d) ds = [] -> unique_emails (ds ++ [d]).
Proof.
  intros Hu Hfree address. rewrite profiles_of_snoc, length_app.
  destruct (String.eqb (email d) address) eqn:E.
  - apply String.eqb_eq in E. subst address. rewrite Hfree. cbn. lia.
  - specialize (Hu address). cbn. lia.
Qed.

Lemma run_users b avatarUrl a w :
  users (run b avatarUrl a w) = users w \/
  exists name address d,
    a = CreateAccount name address /\
    profiles_of address (users w) = [] /\
    email d = address /\
    users (run b avatarUrl a w) = (users w ++ [d])%list.
Proof.
  destruct a as [address|name address|userId password| | |address]; cbn.
  - left. apply users_sendEmailOTP.
  - destruct (createAccount_users b avatarUrl name address w) as [H|[d H]].
    + left. exact H.
    + right. exists name, address, d. split; [reflexivity | exact H].
  - left. apply users_verifySecret.
  - left. apply users_getCurrentUser.
  - left. apply users_signOutUser.
  - left. apply users_signInUser.
Qed.

Lemma step_unique_emails avatarUrl w w' :
  step avatarUrl w w' -> unique_emails (users w) -> unique_emails (users w').
Proof.
  intros (b & a & ->) Hu.
  destruct (run_users b avatarUrl a w) as [->|(name & address & d & _ & Hfree & He & ->)].
  - exact Hu.
  - apply unique_emails_snoc; [exact Hu|]. rewrite He. exact Hfree.
Qed.

(** C9: from a world with at most one profile per email, every world reached
    by running the exported actions one after the other, against any
    behaviour of the backend, has at most one profile per email; an action
    that changes the users collection is a [createAccount], and it appended
    one profile under its email, for which the collection held none. *)
Theorem one_profile_per_email avatarUrl w w' :
  unique_emails (users w) ->
  rtc (step avatarUrl) w w' ->
  unique_emails (users w') /\
  forall b a,
    users (run b avatarUrl a w') = users w' \/
    exists name address d,
      a = CreateAccount name address /\
      profiles_of address (users w') = [] /\
      email d = address /\
      users (run b avatarUrl a w') = (users w' ++ [d])%list.
Proof.
  intros Hu Hreach. split.
  - induction Hreach as [w|w w1 w2 Hstep _ IH]; [exact Hu|].
    apply IH. eapply step_unique_emails; eassumption.
  - intros b a. apply run_users.
Qed.

(** ** The theorems at work on the sample worlds *)

(** The backend refuses to delete the session of Ada: she is redirected with
    her session cookie still in the jar. *)
Lemma signOutUser_cookie_survives :
  ~ cookie_absent SESSION_COOKIE (snd (signOutUser refusing_deletion ada_signed_in)).
Proof. unfold cookie_absent. vm_compute. discriminate. Qed.

Lemma signOutUser_cookie_sample :
  sessionClientResp steady (SessionClient :: calls ada_signed_in) = inr () /\
  cookie_absent SESSION_COOKIE (snd (signOutUser steady ada_signed_in)).
Proof.
  split; [reflexivity|].
  exact (signOutUser_cookie steady ada_signed_in eq_refl).
Defined.

Lemma signOutUser_redirects_sample :
  sessionClientResp refusing_deletion (SessionClient :: calls ada_signed_in) = inr () /\
  fst (signOutUser refusing_deletion ada_signed_in) = Threw (NextRedirect "/sign-in").
Proof.
  split; [reflexivity|].
  exact (signOutUser_redirects refusing_deletion ada_signed_in eq_refl).
Defined.

Lemma verifySecret_cookie_sample :
  (session_creation steady nobody "acc-ada" "482913" = inr (mkSession "sess-1" "s3cr3t") /\
   fst (verifySecret steady "acc-ada" "482913" nobody)
   = Returned (mkSessionResult "sess-1") /\
   jar (snd (verifySecret steady "acc-ada" "482913" nobody))
   = <[SESSION_COOKIE := mkCookie "s3cr3t" "/" true Strict true]> (jar nobody)) /\
  (session_creation refusing_session nobody "acc-ada" "000000"
   = inl (JsError "invalid token") /\
   fst (verifySecret refusing_session "acc-ada" "000000" nobody)
   = Threw (JsError "invalid token") /\
   jar (snd (verifySecret refusing_session "acc-ada" "000000" nobody)) = jar nobody).
Proof.
  split.
  - split; [reflexivity|].
    exact (proj1 (verifySecret_cookie steady nobody "acc-ada" "482913")
             (mkSession "sess-1" "s3cr3t") eq_refl).
  - split; [reflexivity|].
    exact (proj2 (verifySecret_cookie refusing_session nobody "acc-ada" "000000")
             (JsError "invalid token") eq_refl).
Defined.

(** The backend creates the session of Ada without an identifier: the cookie
    is set and [verifySecret] returns the empty identifier. *)
Lemma verifySecret_returns_empty_identifier :
  session_creation unnamed_session nobody "acc-ada" "482913"
  = inr (mkSession "" "s3cr3t") /\
  jar (snd (verifySecret unnamed_session "acc-ada" "482913" nobody)) !! SESSION_COOKIE
  = Some (mkCookie "s3cr3t" "/" true Strict true) /\
  ~ (exists r,
        fst (verifySecret unnamed_session "acc-ada" "482913" nobody) = Returned r /\
        sessionId r <> "").
Proof.
  split; [reflexivity|]. split; [reflexivity|].
  intros (r & Hr & Hne). cbn in Hr. injection Hr as <-. apply Hne. reflexivity.
Qed.

(** There is no session client to make: [signOutUser] throws the error of the
    client and redirects nowhere. *)
Lemma signOutUser_no_redirect :
  fst (signOutUser signed_out ada_signed_in) = Threw (JsError "No session") /\
  fst (signOutUser signed_out ada_signed_in) <> Threw (NextRedirect "/sign-in").
Proof. split; [reflexivity | discriminate]. Qed.

Lemma createAccount_profile_sample :
  (getUserByEmail steady grace_address nobody = (Returned None, grace_looked_up) /\
   sendEmailOTP steady grace_address grace_looked_up
   = (Returned (Some "acc-grace"), grace_mailed) /\
   "acc-grace" <> "" /\
   profiles_of grace_address (users nobody) = [] /\
   adminClientResp steady (AdminClient :: calls grace_mailed) = inr () /\
   createDocumentResp steady (CreateDocument grace :: AdminClient :: calls grace_mailed)
   = inr () /\
   fst (createAccount steady default_avatar "Grace Hopper" grace_address nobody)
   = Returned (mkAccountResult "acc-grace") /\
   users (snd (createAccount steady default_avatar "Grace Hopper" grace_address nobody))
   = (users nobody ++ [grace])%list /\
   profiles_of grace_address
     (users (snd (createAccount steady default_avatar "Grace Hopper" grace_address nobody)))
   = [grace]) /\
  (getUserByEmail steady (email ada) ada_signed_in = (Returned (Some ada), ada_looked_up) /\
   sendEmailOTP steady (email ada) ada_looked_up = (Returned (Some "acc-grace"), ada_mailed) /\
   profiles_of (email ada) (users ada_signed_in) <> [] /\
   fst (createAccount steady default_avatar "Ada" (email ada) ada_signed_in)
   = Returned (mkAccountResult "acc-grace") /\
   users (snd (createAccount steady default_avatar "Ada" (email ada) ada_signed_in))
   = users ada_signed_in).
Proof.
  assert (Hid : "acc-grace" <> "") by discriminate.
  assert (Hreg : profiles_of (email ada) (users ada_signed_in) <> []) by discriminate.
  split.
  - split; [reflexivity|]. split; [reflexivity|]. split; [exact Hid|].
    split; [reflexivity|]. split; [reflexivity|]. split; [reflexivity|].
    exact (proj1 (createAccount_profile steady default_avatar "Grace Hopper" grace_address
                    nobody None grace_looked_up "acc-grace" grace_mailed
                    eq_refl eq_refl Hid)
             eq_refl eq_refl eq_refl).
  - split; [reflexivity|]. split; [reflexivity|]. split; [exact Hreg|].
    exact (proj2 (createAccount_profile steady default_avatar "Ada" (email ada)
                    ada_signed_in (Some ada) ada_looked_up "acc-grace" ada_mailed
                    eq_refl eq_refl Hid)
             Hreg).
Defined.

Lemma createAccount_one_passcode_sample :
  (getUserByEmail steady grace_address nobody = (Returned None, grace_looked_up) /\
   adminClientResp steady (AdminClient :: calls grace_looked_up) = inr () /\
   passcode_requests
     (snd (createAccount steady default_avatar "Grace Hopper" grace_address nobody))
   = S (passcode_requests nobody)) /\
  (getUserByEmail steady (email ada) ada_signed_in = (Returned (Some ada), ada_looked_up) /\
   adminClientResp steady (AdminClient :: calls ada_looked_up) = inr () /\
   passcode_requests
     (snd (createAccount steady default_avatar "Ada" (email ada) ada_signed_in))
   = S (passcode_requests ada_signed_in)).
Proof.
  split; (split; [reflexivity|]; split; [reflexivity|]).
  - exact (createAccount_one_passcode steady default_avatar "Grace Hopper" grace_address
             nobody None grace_looked_up eq_refl eq_refl).
  - exact (createAccount_one_passcode steady default_avatar "Ada" (email ada)
             ada_signed_in (Some ada) ada_looked_up eq_refl eq_refl).
Defined.

Lemma createAccount_issuance_failed_sample :
  (getUserByEmail unreachable_mail grace_address nobody = (Returned None, grace_looked_up) /\
   issuance_failed (fst (sendEmailOTP unreachable_mail grace_address grace_looked_up)) /\
   fst (createAccount unreachable_mail default_avatar "Grace Hopper" grace_address nobody)
   = Threw (JsError "mail service down") /\
   users (snd (createAccount unreachable_mail default_avatar "Grace Hopper" grace_address
                 nobody))
   = users nobody) /\
  (getUserByEmail blank_token grace_address nobody = (Returned None, grace_looked_up) /\
   issuance_failed (fst (sendEmailOTP blank_token grace_address grace_looked_up)) /\
   fst (createAccount blank_token default_avatar "Grace Hopper" grace_address nobody)
   = Threw (JsError "Failed to send an OTP") /\
   users (snd (createAccount blank_token default_avatar "Grace Hopper" grace_address
                 nobody))
   = users nobody).
Proof.
  split.
  - split; [reflexivity|]. split; [exact I|].
    exact (createAccount_issuance_failed unreachable_mail default_avatar "Grace Hopper"
             grace_address nobody None grace_looked_up eq_refl I).
  - split; [reflexivity|]. split; [reflexivity|].
    exact (createAccount_issuance_failed blank_token default_avatar "Grace Hopper"
             grace_address nobody None grace_looked_up eq_refl eq_refl).
Defined.

Lemma getCurrentUser_cases_sample :
  (sessionClientResp signed_out (SessionClient :: calls nobody) = inl (JsError "No session") /\
   getCurrentUser signed_out nobody
   = (Threw (JsError "No session"), set_calls (fun _ => [SessionClient]) nobody)) /\
  (sessionClientResp expired_session (SessionClient :: calls ada_signed_in) = inr () /\
   accountGetResp expired_session (AccountGet :: SessionClient :: calls ada_signed_in)
   = inl (JsError "session expired") /\
   getCurrentUser expired_session ada_signed_in
   = (Threw (JsError "session expired"),
      set_calls (fun _ => [AccountGet; SessionClient]) ada_signed_in)) /\
  (profiles_of_account "acc-nobody" (users ada_signed_in) = [] /\
   fst (getCurrentUser stranger ada_signed_in) = Returned None) /\
  (profiles_of_account "acc-ada" (users ada_signed_in) <> [] /\
   exists d,
     fst (getCurrentUser steady ada_signed_in) = Returned (Some d) /\
     head (profiles_of_account "acc-ada" (users ada_signed_in)) = Some d /\
     In d (users ada_signed_in) /\ accountId d = "acc-ada").
Proof.
  assert (Hreg : profiles_of_account "acc-ada" (users ada_signed_in) <> [])
    by discriminate.
  split; [|split; [|split]].
  - split; [reflexivity|].
    exact (proj1 (getCurrentUser_cases signed_out nobody) (JsError "No session") eq_refl).
  - split; [reflexivity|]. split; [reflexivity|].
    exact (proj1 (proj2 (getCurrentUser_cases expired_session ada_signed_in))
             (JsError "session expired") eq_refl eq_refl).
  - split; [reflexivity|].
    exact (proj1 (proj2 (proj2 (getCurrentUser_cases stranger ada_signed_in))
                    "acc-nobody" eq_refl eq_refl eq_refl)
             eq_refl).
  - split; [exact Hreg|].
    exact (proj2 (proj2 (proj2 (getCurrentUser_cases steady ada_signed_in))
                    "acc-ada" eq_refl eq_refl eq_refl)
             Hreg).
Defined.

Lemma signInUser_cases_sample :
  (getUserByEmail steady (email ada) ada_signed_in = (Returned (Some ada), ada_looked_up) /\
   profiles_of (email ada) (users ada_signed_in) <> [] /\
   sendEmailOTP steady (email ada) ada_looked_up = (Returned (Some "acc-grace"), ada_mailed) /\
   exists d,
     head (profiles_of (email ada) (users ada_signed_in)) = Some d /\
     fst (signInUser steady (email ada) ada_signed_in)
     = Returned (mkSignInResult (Some (accountId d)) None) /\
     passcode_requests (snd (signInUser steady (email ada) ada_signed_in))
     = S (passcode_requests ada_signed_in)) /\
  (getUserByEmail steady grace_address nobody = (Returned None, grace_looked_up) /\
   profiles_of grace_address (users nobody) = [] /\
   fst (signInUser steady grace_address nobody)
   = Returned (mkSignInResult None (Some "User not found")) /\
   passcode_requests (snd (signInUser steady grace_address nobody))
   = passcode_requests nobody).
Proof.
  assert (Hreg : profiles_of (email ada) (users ada_signed_in) <> []) by discriminate.
  split.
  - split; [reflexivity|]. split; [exact Hreg|]. split; [reflexivity|].
    exact (proj1 (signInUser_cases steady (email ada) ada_signed_in (Some ada)
                    ada_looked_up eq_refl)
             Hreg (Some "acc-grace") ada_mailed eq_refl).
  - split; [reflexivity|]. split; [reflexivity|].
    exact (proj2 (signInUser_cases steady grace_address nobody None grace_looked_up eq_refl)
             eq_refl).
Defined.

Lemma unique_emails_nil : unique_emails [].
Proof. intros address. cbn. lia. Defined.

Lemma one_profile_per_email_sample :
  unique_emails (users nobody) /\
  rtc (step default_avatar) nobody grace_twice /\
  unique_emails (users grace_twice) /\
  users grace_twice = [grace].
Proof.
  assert (Hreach : rtc (step default_avatar) nobody grace_twice).
  { apply rtc_l with grace_registered; [|apply rtc_once].
    - exists steady, (CreateAccount "Grace Hopper" grace_address). reflexivity.
    - exists steady, (CreateAccount "G. Hopper" grace_address). reflexivity. }
  split; [exact unique_emails_nil|]. split; [exact Hreach|].
  split; [|reflexivity].
  exact (proj1 (one_profile_per_email default_avatar nobody grace_twice
                  unique_emails_nil Hreach)).
Defined.

(** Ada signs in: the backend names the token after [acc-grace], and
    [signInUser] returns the [acc-ada] of her profile. *)
Lemma signInUser_accountId_of_profile_sample :
  getUserByEmail steady (email ada) ada_signed_in = (Returned (Some ada), ada_looked_up) /\
  head (profiles_of (email ada) (users ada_signed_in)) = Some ada /\
  sendEmailOTP steady (email ada) ada_looked_up = (Returned (Some "acc-grace"), ada_mailed) /\
  fst (signInUser steady (email ada) ada_signed_in)
  = Returned (mkSignInResult (Some "acc-ada") None).
Proof.
  split; [reflexivity|]. split; [reflexivity|]. split; [reflexivity|].
  exact (proj1 (proj2 (proj2
           (signInUser_accountId_of_profile steady (email ada) ada_signed_in (Some ada)
              ada_looked_up (Some "acc-grace") ada_mailed ada eq_refl eq_refl eq_refl)))).
Defined.

(** ** Further properties of the actions *)

(** *** The lookup by email *)

(** X1: when [getUserByEmail] returns a document, it is a stored one, it
    carries the email asked for and it is the first such in listing order;
    when it returns [null], no stored document carries that email.  The
    lookup writes nothing: collection, cookies and console are as before. *)
Theorem getUserByEmail_lookup b address w r w1 :
  getUserByEmail b address w = (Returned r, w1) ->
  users w1 = users w /\ jar w1 = jar w /\ console w1 = console w /\
  match r with
  | Some d =>
      In d (users w) /\ email d = address /\
      head (profiles_of address (users w)) = Some d
  | None => forall d, In d (users w) -> email d <> address
  end.
Proof.
  intros H. apply getUserByEmail_returned in H as [-> ->].
  repeat split.
  destruct (head (profiles_of address (users w))) as [d|] eqn:Hd.
  - destruct (head_filter_Some _ _ _ Hd) as [Hin Heq].
    apply String.eqb_eq in Heq. auto.
  - intros d Hin Heq.
    pose proof (head_filter_None _ _ Hd d Hin) as Hne. cbn in Hne.
    apply String.eqb_neq in Hne. contradiction.
Qed.

Lemma getUserByEmail_lookup_sample :
  getUserByEmail steady (email ada) ada_signed_in = (Returned (Some ada), ada_looked_up) /\
  In ada (users ada_signed_in) /\ email ada = email ada /\
  head (profiles_of (email ada) (users ada_signed_in)) = Some ada.
Proof.
  split; [reflexivity|].
  exact (proj2 (proj2 (proj2
           (getUserByEmail_lookup steady (email ada) ada_signed_in (Some ada)
              ada_looked_up eq_refl)))).
Defined.

(** *** What reaches the console *)

(** X2: [sendEmailOTP] returns the user identifier the backend answered,
    untouched and unlogged.  A failure of [createEmailToken] is logged once,
    under [Failed to send email OTP], and thrown again; a failure of the admin
    client, made before the [try], is thrown without a line in the console. *)
Theorem sendEmailOTP_console b address w :
  match adminClientResp b (AdminClient :: calls w) with
  | inl e =>
      fst (sendEmailOTP b address w) = Threw e /\
      console (snd (sendEmailOTP b address w)) = console w
  | inr _ =>
      match createEmailTokenResp b
              (CreateEmailToken (unique b (minted w)) address :: AdminClient :: calls w)
      with
      | inl e =>
          fst (sendEmailOTP b address w) = Threw e /\
          console (snd (sendEmailOTP b address w))
          = LogError e "Failed to send email OTP" :: console w
      | inr u =>
          fst (sendEmailOTP b address w) = Returned u /\
          console (snd (sendEmailOTP b address w)) = console w
      end
  end.
Proof.
  unfold sendEmailOTP, createAdminClient, createEmailToken, ID_unique, handleError,
    console_log, request, try_catch, bind, ret, throw. cbn.
  destruct (adminClientResp b _) as [e|[]]; cbn; [split; reflexivity|].
  destruct (createEmailTokenResp b _) as [e|u]; cbn; split; reflexivity.
Qed.

(** X3: [verifySecret] logs every failure of the session creation once, under
    [Failed to verify OTP], the one of the admin client included since it is
    made inside the [try]; a success leaves the console as it was. *)
Theorem verifySecret_console b w userId password :
  match session_creation b w userId password with
  | inl e =>
      console (snd (verifySecret b userId password w))
      = LogError e "Failed to verify OTP" :: console w
  | inr _ => console (snd (verifySecret b userId password w)) = console w
  end.
Proof.
  unfold session_creation, verifySecret, createAdminClient, createSession, cookies_set,
    handleError, console_log, request, try_catch, bind, ret, throw. cbn.
  destruct (adminClientResp b _) as [e|[]]; cbn; [reflexivity|].
  destruct (createSessionResp b _) as [e|s]; reflexivity.
Qed.

(** *** signOutUser, outside of the [try] and in the console *)

(** X4: when the session client cannot be made, [signOutUser] throws that
    error and nothing else happens: no redirect, no deletion request, no
    cookie removed, no line logged. *)
Theorem signOutUser_without_client b w e :
  sessionClientResp b (SessionClient :: calls w) = inl e ->
  signOutUser b w = (Threw e, set_calls (cons SessionClient) w).
Proof.
  intros H.
  unfold signOutUser, createSessionClient, request, bind. cbn.
  rewrite H. reflexivity.
Qed.

Lemma signOutUser_without_client_sample :
  sessionClientResp signed_out (SessionClient :: calls ada_signed_in)
  = inl (JsError "No session") /\
  signOutUser signed_out ada_signed_in
  = (Threw (JsError "No session"), set_calls (cons SessionClient) ada_signed_in).
Proof.
  split; [reflexivity|].
  exact (signOutUser_without_client signed_out ada_signed_in (JsError "No session") eq_refl).
Defined.

(** X5: once the session client is made, a refused deletion is logged under
    [Failed to sign out user] and the caller, redirected, never sees the
    error; an accepted one is logged as [User logged out successfully]. *)
Theorem signOutUser_console b w :
  sessionClientResp b (SessionClient :: calls w) = inr () ->
  match deleteSessionResp b (DeleteSession "current" :: SessionClient :: calls w) with
  | inl e =>
      signOutUser b w
      = (Threw (NextRedirect "/sign-in"),
         set_console (cons (LogError e "Failed to sign out user"))
           (set_calls (fun h => DeleteSession "current" :: SessionClient :: h) w))
  | inr _ =>
      console (snd (signOutUser b w))
      = LogText "User logged out successfully" :: console w
  end.
Proof.
  intros Hc.
  unfold signOutUser, createSessionClient, deleteSession, cookies_delete, handleError,
    console_log, redirect, request, try_finally, try_catch, bind, throw.
  cbn. rewrite Hc. cbn.
  destruct (deleteSessionResp b _) as [e|[]]; reflexivity.
Qed.

Lemma signOutUser_console_sample :
  sessionClientResp refusing_deletion (SessionClient :: calls ada_signed_in) = inr () /\
  signOutUser refusing_deletion ada_signed_in
  = (Threw (NextRedirect "/sign-in"),
     set_console (cons (LogError (JsError "session not found") "Failed to sign out user"))
       (set_calls (fun h => DeleteSession "current" :: SessionClient :: h) ada_signed_in)).
Proof.
  split; [reflexivity|].
  exact (signOutUser_console refusing_deletion ada_signed_in eq_refl).
Defined.

(** *** signInUser in the console *)

Lemma sendEmailOTP_refused b address w e :
  adminClientResp b (AdminClient :: calls w) = inr () ->
  createEmailTokenResp b
    (CreateEmailToken (unique b (minted w)) address :: AdminClient :: calls w) = inl e ->
  exists w2,
    sendEmailOTP b address w = (Threw e, w2) /\
    console w2 = LogError e "Failed to send email OTP" :: console w.
Proof.
  intros Hadmin Htoken.
  unfold sendEmailOTP, createAdminClient, createEmailToken, ID_unique, handleError,
    console_log, request, try_catch, bind, ret, throw. cbn.
  rewrite Hadmin. cbn. rewrite Htoken. cbn. eexists. split; reflexivity.
Qed.

(** X6: a passcode the backend refuses during [signInUser] is logged twice,
    by the handler of [sendEmailOTP] and then by the one of [signInUser], and
    thrown to the caller; a lookup that fails is logged once. *)
Theorem signInUser_console b address w :
  (forall d w1 e,
      getUserByEmail b address w = (Returned (Some d), w1) ->
      adminClientResp b (AdminClient :: calls w1) = inr () ->
      createEmailTokenResp b
        (CreateEmailToken (unique b (minted w1)) address :: AdminClient :: calls w1)
      = inl e ->
      fst (signInUser b address w) = Threw e /\
      console (snd (signInUser b address w))
      = LogError e "Failed to sign in user"
        :: LogError e "Failed to send email OTP" :: console w) /\
  (forall e w1,
      getUserByEmail b address w = (Threw e, w1) ->
      fst (signInUser b address w) = Threw e /\
      console (snd (signInUser b address w))
      = LogError e "Failed to sign in user" :: console w).
Proof.
  split.
  - intros d w1 e Hlookup Hadmin Htoken.
    apply getUserByEmail_returned in Hlookup as Hw. destruct Hw as [_ Hw].
    destruct (sendEmailOTP_refused b address w1 e Hadmin Htoken) as (w2 & Hsend & Hlog).
    rewrite signInUser_eq, Hlookup, Hsend. cbn. rewrite Hlog, Hw. split; reflexivity.
  - intros e w1 Hlookup.
    assert (Hlog : console w1 = console w).
    { assert (P : preserves console (getUserByEmail b address)) by frame.
      specialize (P w). rewrite Hlookup in P. exact P. }
    rewrite signInUser_eq, Hlookup. cbn. rewrite Hlog. split; reflexivity.
Qed.

Lemma signInUser_console_sample :
  (getUserByEmail unreachable_mail (email ada) ada_signed_in
   = (Returned (Some ada), ada_looked_up) /\
   adminClientResp unreachable_mail (AdminClient :: calls ada_looked_up) = inr () /\
   createEmailTokenResp unreachable_mail
     (CreateEmailToken (unique unreachable_mail (minted ada_looked_up)) (email ada)
        :: AdminClient :: calls ada_looked_up)
   = inl (JsError "mail service down") /\
   fst (signInUser unreachable_mail (email ada) ada_signed_in)
   = Threw (JsError "mail service down") /\
   console (snd (signInUser unreachable_mail (email ada) ada_signed_in))
   = LogError (JsError "mail service down") "Failed to sign in user"
     :: LogError (JsError "mail service down") "Failed to send email OTP"
     :: console ada_signed_in) /\
  (getUserByEmail broken_listing (email ada) ada_signed_in
   = (Threw (JsError "database unavailable"),
      set_calls (fun h => ListDocuments [Query_equal "email" [email ada]]
                          :: AdminClient :: h) ada_signed_in) /\
   fst (signInUser broken_listing (email ada) ada_signed_in)
   = Threw (JsError "database unavailable") /\
   console (snd (signInUser broken_listing (email ada) ada_signed_in))
   = LogError (JsError "database unavailable") "Failed to sign in user"
     :: console ada_signed_in).
Proof.
  split.
  - split; [reflexivity|]. split; [reflexivity|]. split; [reflexivity|].
    exact (proj1 (signInUser_console unreachable_mail (email ada) ada_signed_in)
             ada ada_looked_up (JsError "mail service down") eq_refl eq_refl eq_refl).
  - split; [reflexivity|].
    exact (proj2 (signInUser_console broken_listing (email ada) ada_signed_in)
             (JsError "database unavailable") _ eq_refl).
Defined.

(** *** The cookie jar *)

Lemma jar_sendEmailOTP b address : preserves jar (sendEmailOTP b address).
Proof. frame. Qed.

Lemma jar_createAccount b avatarUrl name address :
  preserves jar (createAccount b avatarUrl name address).
Proof. frame. Qed.

Lemma jar_getCurrentUser b : preserves jar (getCurrentUser b).
Proof. frame. Qed.

Lemma jar_signInUser b address : preserves jar (signInUser b address).
Proof. frame. Qed.

Lemma cookie_verifySecret b userId password name :
  name <> SESSION_COOKIE ->
  preserves (fun w => jar w !! name) (verifySecret b userId password).
Proof.
  intros Hne. frame.
  intros w. cbn. apply lookup_insert_ne. congruence.
Qed.

Lemma cookie_signOutUser b name :
  name <> SESSION_COOKIE ->
  preserves (fun w => jar w !! name) (signOutUser b).
Proof.
  intros Hne. frame.
  intros w. cbn. apply lookup_delete_ne. congruence.
Qed.

(** X7: [sendEmailOTP], [createAccount], [getCurrentUser] and [signInUser]
    leave the cookie jar as it is, whatever the backend answers; and no action
    at all sets or deletes a cookie other than the session one. *)
Theorem cookies_of_others b avatarUrl a w :
  (touches_cookies a = false -> jar (run b avatarUrl a w) = jar w) /\
  (forall name, name <> SESSION_COOKIE ->
                jar (run b avatarUrl a w) !! name = jar w !! name).
Proof.
  split.
  - destruct a; cbn; intros H; try discriminate.
    + apply jar_sendEmailOTP.
    + apply jar_createAccount.
    + apply jar_getCurrentUser.
    + apply jar_signInUser.
  - intros name Hne. destruct a; cbn.
    + rewrite jar_sendEmailOTP. reflexivity.
    + rewrite jar_createAccount. reflexivity.
    + apply (cookie_verifySecret b userId password name Hne w).
    + rewrite jar_getCurrentUser. reflexivity.
    + apply (cookie_signOutUser b name Hne w).
    + rewrite jar_signInUser. reflexivity.
Qed.

Lemma cookies_of_others_sample :
  "theme" <> SESSION_COOKIE /\
  jar (run steady default_avatar SignOutUser (with_theme ada_signed_in)) !! "theme"
  = jar (with_theme ada_signed_in) !! "theme".
Proof.
  assert (Hne : "theme" <> SESSION_COOKIE) by discriminate.
  split; [exact Hne|].
  exact (proj2 (cookies_of_others steady default_avatar SignOutUser
                  (with_theme ada_signed_in)) "theme" Hne).
Defined.

(** *** getCurrentUser writes nothing *)

(** X8: whatever the backend answers, and whether it returns or throws,
    [getCurrentUser] leaves the users collection, the cookie jar and the
    console as they were, and draws no identifier. *)
Theorem getCurrentUser_read_only b w :
  users (snd (getCurrentUser b w)) = users w /\
  jar (snd (getCurrentUser b w)) = jar w /\
  console (snd (getCurrentUser b w)) = console w /\
  minted (snd (getCurrentUser b w)) = minted w.
Proof.
  assert (Hu : preserves users (getCurrentUser b)) by frame.
  assert (Hj : preserves jar (getCurrentUser b)) by frame.
  assert (Hc : preserves console (getCurrentUser b)) by frame.
  assert (Hm : preserves minted (getCurrentUser b)) by frame.
  repeat split; [apply Hu | apply Hj | apply Hc | apply Hm].
Qed.

(** *** What createAccount leaves behind *)

(** The collection after a [createAccount] that returned. *)
Lemma createAccount_returned_users b avatarUrl name address w r w' :
  createAccount b avatarUrl name address w = (Returned r, w') ->
  account_accountId r <> "" /\
  ((profiles_of address (users w) <> [] /\ users w' = users w) \/
   (profiles_of address (users w) = [] /\
    exists id,
      users w' = (users w ++ [mkDocument id name address avatarUrl (account_accountId r)])%list)).
Proof.
  pose proof (users_getUserByEmail b address w) as U1.
  pose proof (users_sendEmailOTP b address) as U2.
  rewrite createAccount_eq.
  destruct (getUserByEmail b address w) as [[existing|e] w1] eqn:Hlookup;
    cbn in U1; [|discriminate].
  apply getUserByEmail_returned in Hlookup as [-> _].
  specialize (U2 w1).
  destruct (sendEmailOTP b address w1) as [[u|e] w2]; cbn in U2; [|discriminate].
  destruct (truthy u) as [id|] eqn:E; [|discriminate].
  apply truthy_Some in E as [_ Hid].
  destruct (head (profiles_of address (users w))) as [d|] eqn:Hhead.
  - unfold bind, ret. cbn. intros [= <- <-]. split; [exact Hid|]. left.
    split; [|congruence].
    destruct (profiles_of address (users w)); [discriminate | congruence].
  - apply head_None_nil in Hhead.
    unfold createAdminClient, ID_unique, createDocument, request, bind, ret. cbn.
    destruct (adminClientResp b _) as [e|[]]; cbn; [discriminate|].
    destruct (createDocumentResp b _) as [e|[]]; cbn; [discriminate|].
    intros [= <- <-]. split; [exact Hid|]. right. split; [exact Hhead|].
    eexists. cbn. rewrite U2, U1. reflexivity.
Qed.

(** X9: a [createAccount] that returns leaves the email registered, under a
    non-empty account identifier: a new email got one profile, with the name
    given, the placeholder avatar and the identifier returned; a registered
    one kept the collection it had. *)
Theorem createAccount_returned b avatarUrl name address w r w' :
  createAccount b avatarUrl name address w = (Returned r, w') ->
  account_accountId r <> "" /\
  profiles_of address (users w') <> [] /\
  (profiles_of address (users w) = [] ->
   exists id,
     users w'
     = (users w ++ [mkDocument id name address avatarUrl (account_accountId r)])%list) /\
  (profiles_of address (users w) <> [] -> users w' = users w).
Proof.
  intros H. apply createAccount_returned_users in H as [Hid [[Hreg Hu]|[Hfree [id Hu]]]].
  - split; [exact Hid|]. split; [rewrite Hu; exact Hreg|].
    split; [intros Hfree; contradiction | intros _; exact Hu].
  - split; [exact Hid|]. split.
    + rewrite Hu, profiles_of_snoc, Hfree. cbn. rewrite String.eqb_refl. discriminate.
    + split; [intros _; exists id; exact Hu | intros Hreg; contradiction].
Qed.

Lemma createAccount_returned_sample :
  createAccount steady default_avatar "Grace Hopper" grace_address nobody
  = (Returned (mkAccountResult "acc-grace"), grace_registered) /\
  "acc-grace" <> "" /\
  profiles_of grace_address (users grace_registered) <> [].
Proof.
  split; [reflexivity|].
  pose proof (createAccount_returned steady default_avatar "Grace Hopper" grace_address
                nobody (mkAccountResult "acc-grace") grace_registered eq_refl) as H.
  exact (conj (proj1 H) (proj1 (proj2 H))).
Defined.

(** X10: registering a new email and signing in with it afterwards, against
    any later behaviour of the backend that lets the sign-in through, gives
    back the account identifier the registration returned. *)
Theorem createAccount_then_signInUser b b' avatarUrl name address w r w' existing w1 u w2 :
  createAccount b avatarUrl name address w = (Returned r, w') ->
  profiles_of address (users w) = [] ->
  getUserByEmail b' address w' = (Returned existing, w1) ->
  sendEmailOTP b' address w1 = (Returned u, w2) ->
  fst (signInUser b' address w')
  = Returned (mkSignInResult (Some (account_accountId r)) None).
Proof.
  intros Hcreate Hfree Hlookup Hsend.
  apply createAccount_returned_users in Hcreate as [_ [[Hreg _]|[_ [id Hu]]]];
    [contradiction|].
  apply getUserByEmail_returned in Hlookup as Hfound. destruct Hfound as [-> _].
  rewrite Hu, profiles_of_snoc, Hfree in Hlookup. cbn in Hlookup.
  rewrite String.eqb_refl in Hlookup. cbn in Hlookup.
  rewrite signInUser_eq, Hlookup, Hsend. reflexivity.
Qed.

Lemma createAccount_then_signInUser_sample :
  createAccount steady default_avatar "Grace Hopper" grace_address nobody
  = (Returned (mkAccountResult "acc-grace"), grace_registered) /\
  profiles_of grace_address (users nobody) = [] /\
  getUserByEmail blank_token grace_address grace_registered
  = (Returned (Some grace), snd (getUserByEmail blank_token grace_address grace_registered)) /\
  sendEmailOTP blank_token grace_address
    (snd (getUserByEmail blank_token grace_address grace_registered))
  = (Returned (Some ""),
     snd (sendEmailOTP blank_token grace_address
            (snd (getUserByEmail blank_token grace_address grace_registered)))) /\
  fst (signInUser blank_token grace_address grace_registered)
  = Returned (mkSignInResult (Some "acc-grace") None).
Proof.
  split; [reflexivity|]. split; [reflexivity|]. split; [reflexivity|].
  split; [reflexivity|].
  exact (createAccount_then_signInUser steady blank_token default_avatar "Grace Hopper"
           grace_address nobody (mkAccountResult "acc-grace") grace_registered
           (Some grace) _ (Some "") _ eq_refl eq_refl eq_refl eq_refl).
Defined.

(** X11: when the lookup of [createAccount] fails, the action stops there:
    the error reaches the caller as it is, no passcode was asked for, nothing
    was stored and nothing logged. *)
Theorem createAccount_lookup_failed b avatarUrl name address w e w1 :
  getUserByEmail b address w = (Threw e, w1) ->
  createAccount b avatarUrl name address w = (Threw e, w1) /\
  passcode_requests w1 = passcode_requests w /\
  users w1 = users w /\
  console w1 = console w.
Proof.
  intros H.
  pose proof (passcodes_getUserByEmail b address w) as P.
  pose proof (users_getUserByEmail b address w) as U.
  assert (C : preserves console (getUserByEmail b address)) by frame.
  specialize (C w). rewrite H in P, U, C.
  rewrite createAccount_eq, H. auto.
Qed.

Lemma createAccount_lookup_failed_sample :
  getUserByEmail broken_listing grace_address nobody
  = (Threw (JsError "database unavailable"), grace_looked_up) /\
  createAccount broken_listing default_avatar "Grace Hopper" grace_address nobody
  = (Threw (JsError "database unavailable"), grace_looked_up) /\
  passcode_requests grace_looked_up = passcode_requests nobody.
Proof.
  split; [reflexivity|].
  pose proof (createAccount_lookup_failed broken_listing default_avatar "Grace Hopper"
                grace_address nobody (JsError "database unavailable") grace_looked_up
                eq_refl) as H.
  exact (conj (proj1 H) (proj1 (proj2 H))).
Defined.

(** X12: when the profile of a new email cannot be stored, because the admin
    client or [createDocument] fails after the passcode was issued,
    [createAccount] throws that error unlogged and stores nothing, and the one
    passcode it asked for stays sent. *)
Theorem createAccount_store_failed b avatarUrl name address w w1 u w2 e :
  getUserByEmail b address w = (Returned None, w1) ->
  sendEmailOTP b address w1 = (Returned (Some u), w2) ->
  u <> "" ->
  adminClientResp b (AdminClient :: calls w2) = inl e \/
  (adminClientResp b (AdminClient :: calls w2) = inr () /\
   createDocumentResp b
     (CreateDocument (mkDocument (unique b (minted w2)) name address avatarUrl u)
        :: AdminClient :: calls w2) = inl e) ->
  fst (createAccount b avatarUrl name address w) = Threw e /\
  users (snd (createAccount b avatarUrl name address w)) = users w /\
  console (snd (createAccount b avatarUrl name address w)) = console w /\
  passcode_requests (snd (createAccount b avatarUrl name address w))
  = S (passcode_requests w).
Proof.
  intros Hlookup Hsend Hu Hfail.
  apply getUserByEmail_returned in Hlookup as Hw1. destruct Hw1 as [_ Hw1].
  apply sendEmailOTP_returned in Hsend as Hw2. destruct Hw2 as [_ Hw2].
  rewrite createAccount_eq, Hlookup, Hsend, (truthy_nonempty u Hu).
  unfold createAdminClient, ID_unique, createDocument, request, bind, ret. cbn.
  destruct Hfail as [Hadmin|[Hadmin Hcreate]]; rewrite Hadmin; cbn.
  - rewrite Hw2, Hw1. repeat split.
  - rewrite Hcreate. cbn. rewrite Hw2, Hw1. repeat split.
Qed.

Lemma createAccount_store_failed_sample :
  getUserByEmail broken_store grace_address nobody = (Returned None, grace_looked_up) /\
  sendEmailOTP broken_store grace_address grace_looked_up
  = (Returned (Some "acc-grace"), grace_mailed) /\
  "acc-grace" <> "" /\
  (adminClientResp broken_store (AdminClient :: calls grace_mailed) = inr () /\
   createDocumentResp broken_store
     (CreateDocument
        (mkDocument (unique broken_store (minted grace_mailed)) "Grace Hopper"
           grace_address default_avatar "acc-grace")
        :: AdminClient :: calls grace_mailed)
   = inl (JsError "document rejected")) /\
  fst (createAccount broken_store default_avatar "Grace Hopper" grace_address nobody)
  = Threw (JsError "document rejected") /\
  users (snd (createAccount broken_store default_avatar "Grace Hopper" grace_address nobody))
  = users nobody /\
  console (snd (createAccount broken_store default_avatar "Grace Hopper" grace_address
                  nobody))
  = console nobody /\
  passcode_requests
    (snd (createAccount broken_store default_avatar "Grace Hopper" grace_address nobody))
  = S (passcode_requests nobody).
Proof.
  assert (Hid : "acc-grace" <> "") by discriminate.
  split; [reflexivity|]. split; [reflexivity|]. split; [exact Hid|].
  split; [split; reflexivity|].
  exact (createAccount_store_failed broken_store default_avatar "Grace Hopper"
           grace_address nobody grace_looked_up "acc-grace" grace_mailed
           (JsError "document rejected") eq_refl eq_refl Hid
           (or_intror (conj eq_refl eq_refl))).
Defined.

(** *** The requests an action issues *)

Section Emits.

Context (P : Call -> Prop).

Lemma emits_quiet {A} (m : M A) :
  (forall w, calls (snd (m w)) = calls w) -> emits P m.
Proof. intros H w. exists []. split; [apply H | constructor]. Qed.

Lemma emits_request {A} c (resp : list Call -> Thrown + A) :
  P c -> emits P (request c resp).
Proof.
  intros Hc w. exists [c]. split; [|repeat constructor; exact Hc].
  unfold request. destruct (resp _); reflexivity.
Qed.

Lemma emits_bind {A B} (m : M A) (k : A -> M B) :
  emits P m -> (forall a, emits P (k a)) -> emits P (bind m k).
Proof.
  intros Hm Hk w. unfold bind. destruct (Hm w) as (new1 & E1 & F1).
  destruct (m w) as [[a|e] w1]; cbn in E1 |- *.
  - destruct (Hk a w1) as (new2 & E2 & F2).
    exists (new2 ++ new1)%list. split; [|apply Forall_app; auto].
    rewrite E2, E1. apply app_assoc.
  - exists new1. auto.
Qed.

Lemma emits_try_catch {A} (m : M A) h :
  emits P m -> (forall e, emits P (h e)) -> emits P (try_catch m h).
Proof.
  intros Hm Hh w. unfold try_catch. destruct (Hm w) as (new1 & E1 & F1).
  destruct (m w) as [[a|e] w1]; cbn in E1 |- *.
  - exists new1. auto.
  - destruct (Hh e w1) as (new2 & E2 & F2).
    exists (new2 ++ new1)%list. split; [|apply Forall_app; auto].
    rewrite E2, E1. apply app_assoc.
Qed.

Lemma emits_try_finally {A} (m : M A) fin :
  emits P m -> emits P fin -> emits P (try_finally m fin).
Proof.
  intros Hm Hf w. unfold try_finally. destruct (Hm w) as (new1 & E1 & F1).
  destruct (m w) as [r w1]; cbn in E1.
  destruct (Hf w1) as (new2 & E2 & F2).
  exists (new2 ++ new1)%list. split; [|apply Forall_app; auto].
  destruct (fin w1) as [[u|e] w2]; cbn in E2 |- *; rewrite E2, E1; apply app_assoc.
Qed.

Lemma emits_if {A} (c : bool) (m1 m2 : M A) :
  emits P m1 -> emits P m2 -> emits P (if c then m1 else m2).
Proof. destruct c; auto. Qed.

End Emits.

(** Unfolds an action down to its requests; what is left are the side
    conditions that each request is one of the expected ones. *)
Ltac footprint :=
  repeat first
    [ progress intros
    | apply emits_bind
    | apply emits_try_catch
    | apply emits_try_finally
    | apply emits_if
    | apply emits_request
    | solve [ apply emits_quiet; let w := fresh "w" in intros w; reflexivity ]
    | match goal with |- emits _ (match ?x with _ => _ end) => destruct x end
    | match goal with |- emits _ ?m =>
        let h := head_of m in unfold h
      end ].

(** X13: every action only adds to the history of requests, and adds only
    its own: the passcode is asked for the address given, the documents are
    listed by the email given or by the account of the session, the one
    document created carries the name and the email given, the session is
    created for the pair given and the one deleted is the current one. In
    particular [getCurrentUser] and [signInUser] never create a document, and
    only [sendEmailOTP], [createAccount] and [signInUser] ask for a passcode. *)
Theorem requests_of_action b avatarUrl a w :
  exists new,
    calls (run b avatarUrl a w) = (new ++ calls w)%list /\
    Forall (allowed a) new.
Proof.
  destruct a as [address|name address|userId password| | |address]; cbn.
  - assert (H : emits (allowed (SendEmailOTP address)) (sendEmailOTP b address)).
    { footprint; cbn; auto. }
    apply H.
  - assert (H : emits (allowed (CreateAccount name address))
                  (createAccount b avatarUrl name address)).
    { footprint; cbn; auto. }
    apply H.
  - assert (H : emits (allowed (VerifySecret userId password))
                  (verifySecret b userId password)).
    { footprint; cbn; auto. }
    apply H.
  - assert (H : emits (allowed GetCurrentUser) (getCurrentUser b)).
    { footprint; cbn; eauto. }
    apply H.
  - assert (H : emits (allowed SignOutUser) (signOutUser b)).
    { footprint; cbn; auto. }
    apply H.
  - assert (H : emits (allowed (SignInUser address)) (signInUser b address)).
    { footprint; cbn; auto. }
    apply H.
Qed.

(** *** Every stored profile carries an account *)

(** What [createAccount] does to the collection, returning or not: nothing,
    or one profile appended, with a non-empty account identifier. *)
Lemma createAccount_stores b avatarUrl name address w :
  users (snd (createAccount b avatarUrl name address w)) = users w \/
  exists id u,
    u <> "" /\
    users (snd (createAccount b avatarUrl name address w))
    = (users w ++ [mkDocument id name address avatarUrl u])%list.
Proof.
  pose proof (users_getUserByEmail b address w) as U1.
  pose proof (users_sendEmailOTP b address) as U2.
  rewrite createAccount_eq.
  destruct (getUserByEmail b address w) as [[existing|e] w1];
    cbn in U1; [|left; exact U1].
  specialize (U2 w1).
  destruct (sendEmailOTP b address w1) as [[u|e] w2]; cbn in U2;
    [|left; cbn; congruence].
  destruct (truthy u) as [id|] eqn:E; [|left; cbn; congruence].
  apply truthy_Some in E as [_ Hid].
  destruct existing as [d|].
  - left. unfold bind, ret. cbn. congruence.
  - unfold createAdminClient, ID_unique, createDocument, request, bind, ret. cbn.
    destruct (adminClientResp b _) as [e|[]]; cbn; [left; congruence|].
    destruct (createDocumentResp b _) as [e|[]]; cbn; [left; congruence|].
    right. eexists _, id. split; [exact Hid|]. rewrite U2, U1. reflexivity.
Qed.

(** X14: from a collection in which every profile carries a non-empty
    account identifier and the placeholder avatar, no sequence of actions,
    against any behaviour of the backend, reaches one in which a profile
    lacks either: the guard on the identifier stands before the creation. *)
Theorem profiles_stay_sound avatarUrl w w' :
  Forall (sound_profile avatarUrl) (users w) ->
  rtc (step avatarUrl) w w' ->
  Forall (sound_profile avatarUrl) (users w').
Proof.
  intros Hs Hreach.
  induction Hreach as [w|w w1 w2 (b & a & ->) _ IH]; [exact Hs|].
  apply IH. clear IH.
  destruct a as [address|name address|userId password| | |address]; cbn.
  - rewrite users_sendEmailOTP. exact Hs.
  - destruct (createAccount_stores b avatarUrl name address w) as [->|(id & u & Hu & ->)];
      [exact Hs|].
    apply Forall_app. split; [exact Hs|].
    constructor; [|constructor]. split; [exact Hu | reflexivity].
  - rewrite users_verifySecret. exact Hs.
  - rewrite users_getCurrentUser. exact Hs.
  - rewrite users_signOutUser. exact Hs.
  - rewrite users_signInUser. exact Hs.
Qed.

Lemma step_once avatarUrl b a w : rtc (step avatarUrl) w (run b avatarUrl a w).
Proof. apply rtc_once. exists b, a. reflexivity. Defined.

Lemma profiles_stay_sound_sample :
  Forall (sound_profile default_avatar) (users nobody) /\
  rtc (step default_avatar) nobody grace_registered /\
  Forall (sound_profile default_avatar) (users grace_registered) /\
  users grace_registered = [grace].
Proof.
  assert (Hs : Forall (sound_profile default_avatar) (users nobody)) by constructor.
  assert (Hr : rtc (step default_avatar) nobody grace_registered)
    by apply step_once.
  split; [exact Hs|]. split; [exact Hr|]. split; [|reflexivity].
  exact (profiles_stay_sound default_avatar nobody grace_registered Hs Hr).
Defined.

(** *** The session cookie, set and removed *)

Lemma verifySecret_jar b w userId password s :
  session_creation b w userId password = inr s ->
  jar (snd (verifySecret b userId password w))
  = <[SESSION_COOKIE := mkCookie (secret s) "/" true Strict true]> (jar w).
Proof.
  unfold session_creation, verifySecret, createAdminClient, createSession, cookies_set,
    handleError, console_log, request, try_catch, bind, ret, throw. cbn.
  destruct (adminClientResp b _) as [e|[]]; [discriminate|]. cbn.
  intros ->. reflexivity.
Qed.

Lemma signOutUser_jar b w :
  sessionClientResp b (SessionClient :: calls w) = inr () ->
  deleteSessionResp b (DeleteSession "current" :: SessionClient :: calls w) = inr () ->
  jar (snd (signOutUser b w)) = delete SESSION_COOKIE (jar w).
Proof.
  intros Hc Hd.
  unfold signOutUser, createSessionClient, deleteSession, cookies_delete, handleError,
    console_log, redirect, request, try_finally, try_catch, bind, throw.
  cbn. rewrite Hc. cbn. rewrite Hd. reflexivity.
Qed.

(** X15: a verified passcode followed by a sign-out the backend accepts
    leaves no session cookie, and a jar that had none before is back to what
    it was: the cookie the first wrote is the one the second deletes. *)
Theorem verifySecret_then_signOutUser b b' w userId password s :
  session_creation b w userId password = inr s ->
  sessionClientResp b'
    (SessionClient :: calls (snd (verifySecret b userId password w))) = inr () ->
  deleteSessionResp b'
    (DeleteSession "current" :: SessionClient
       :: calls (snd (verifySecret b userId password w))) = inr () ->
  jar (snd (signOutUser b' (snd (verifySecret b userId password w))))
  = delete SESSION_COOKIE (jar w) /\
  (cookie_absent SESSION_COOKIE w ->
   jar (snd (signOutUser b' (snd (verifySecret b userId password w)))) = jar w).
Proof.
  intros Hs Hc Hd.
  rewrite (signOutUser_jar _ _ Hc Hd), (verifySecret_jar _ _ _ _ _ Hs).
  rewrite delete_insert_eq. split; [reflexivity|].
  intros Habsent. apply delete_id. exact Habsent.
Qed.

Lemma verifySecret_then_signOutUser_sample :
  session_creation steady (with_theme nobody) "acc-ada" "482913"
  = inr (mkSession "sess-1" "s3cr3t") /\
  cookie_absent SESSION_COOKIE (with_theme nobody) /\
  jar (snd (signOutUser steady
              (snd (verifySecret steady "acc-ada" "482913" (with_theme nobody)))))
  = jar (with_theme nobody).
Proof.
  split; [reflexivity|]. split; [reflexivity|].
  exact (proj2 (verifySecret_then_signOutUser steady steady (with_theme nobody)
                  "acc-ada" "482913" (mkSession "sess-1" "s3cr3t")
                  eq_refl eq_refl eq_refl)
           eq_refl).
Defined.

(** X16: of two verified passcodes the later one owns the session cookie:
    the jar holds the secret of the second session, as if the first had never
    been set. *)
Theorem verifySecret_twice b b' w userId password userId' password' s s' :
  session_creation b w userId password = inr s ->
  session_creation b' (snd (verifySecret b userId password w)) userId' password'
  = inr s' ->
  jar (snd (verifySecret b' userId' password' (snd (verifySecret b userId password w))))
  = <[SESSION_COOKIE := mkCookie (secret s') "/" true Strict true]> (jar w).
Proof.
  intros Hs Hs'.
  rewrite (verifySecret_jar _ _ _ _ _ Hs'), (verifySecret_jar _ _ _ _ _ Hs).
  apply insert_insert_eq.
Qed.

Lemma verifySecret_twice_sample :
  session_creation steady nobody "acc-ada" "482913" = inr (mkSession "sess-1" "s3cr3t") /\
  session_creation renewing ada_verified "acc-ada" "771204"
  = inr (mkSession "sess-2" "n3w-s3cr3t") /\
  jar (snd (verifySecret renewing "acc-ada" "771204" ada_verified))
  = <[SESSION_COOKIE := mkCookie "n3w-s3cr3t" "/" true Strict true]> (jar nobody).
Proof.
  split; [reflexivity|]. split; [reflexivity|].
  exact (verifySecret_twice steady renewing nobody "acc-ada" "482913" "acc-ada" "771204"
           (mkSession "sess-1" "s3cr3t") (mkSession "sess-2" "n3w-s3cr3t")
           eq_refl eq_refl).
Defined.
